(** * Sedona's Python predicate bindings: [sedona/sql/st_predicates.py]

    The module is a binding layer: nine decorated two-parameter functions,
    each of which hands a function name and the pair of its arguments to
    [call_sedona_function], partially applied to the object name
    ["st_predicates"].

    The first part of this file embeds the module as it is written, over an
    arbitrary dispatcher and an arbitrary process state.  The second part
    instantiates the dispatcher with the predicate engine that the design
    document describes, and relates the wrappers to it. *)

From Stdlib Require Import String List Bool ZArith Lia.
Import ListNotations.
Open Scope string_scope.
Set Warnings "-register-all".

(** ** Exceptions *)

(** [TypeError] is Python's own (wrong number of arguments, argument of the
    wrong type).  The other three are the error taxonomy of the design
    document; [UnresolvedFunction] is the failure of looking a function name
    up in the engine. *)
Inductive Exception : Type :=
| TypeError
| UnresolvedFunction (object_name function_name : string)
| MalformedGeometry
| UnsupportedGeometryType
| NullGeometryError.

(** ** A state and exception monad for Python calls *)

Section PyMonad.
Variable World : Type.

Definition Py (A : Type) : Type := World -> (Exception + A) * World.

Definition ret {A} (x : A) : Py A := fun w => (inr x, w).

Definition raise {A} (e : Exception) : Py A := fun w => (inl e, w).

Definition bind {A B} (m : Py A) (k : A -> Py B) : Py B :=
  fun w =>
    match m w with
    | (inl e, w') => (inl e, w')
    | (inr x, w') => k x w'
    end.
End PyMonad.

Arguments ret {World A} x _.
Arguments raise {World A} e _.
Arguments bind {World A B} m k _.

(** ** Python values and function objects *)

(** Type annotations that occur in the module. *)
Inductive Annotation : Type :=
| ColumnOrName   (* Union[Column, str] *)
| AnnColumn.     (* pyspark.sql.Column *)

Section Values.
Variable Column : Type.

Inductive PyVal : Type :=
| PyNone
| PyInt (n : Z)
| PyStr (s : string)
| PyColumn (c : Column)
| PyTuple (items : list PyVal).

(** Run-time check of a value against an annotation. *)
Definition conforms (ann : Annotation) (v : PyVal) : bool :=
  match ann, v with
  | ColumnOrName, PyStr _ => true
  | ColumnOrName, PyColumn _ => true
  | AnnColumn, PyColumn _ => true
  | _, _ => false
  end.

Fixpoint all_conform (hints : list (string * Annotation)) (args : list PyVal)
  : bool :=
  match hints, args with
  | [], [] => true
  | (_, ann) :: hints', v :: args' => conforms ann v && all_conform hints' args'
  | _, _ => false
  end.
End Values.

Arguments PyNone {Column}.
Arguments PyInt {Column} n.
Arguments PyStr {Column} s.
Arguments PyColumn {Column} c.
Arguments PyTuple {Column} items.
Arguments conforms {Column} ann v.
Arguments all_conform {Column} hints args.

Section Functions.
Variables (Column World : Type).

(** A function object created by a [def] statement: its name, its
    annotated parameters, its return annotation and its body, which
    receives the positional arguments. *)
Record PyFunction : Type := mkPyFunction {
  fn_name : string;
  fn_params : list (string * Annotation);
  fn_returns : Annotation;
  fn_body : list (PyVal Column) -> Py World Column
}.

(** Calling a function with positional arguments (keyword arguments are
    not modelled): Python raises [TypeError] unless there is one argument
    per parameter. *)
Definition py_call (f : PyFunction) (args : list (PyVal Column))
  : Py World Column :=
  if Nat.eqb (length args) (length (fn_params f))
  then fn_body f args
  else raise TypeError.

(** Modelled from the spec: the decorator [validate_argument_types] of
    [sedona.sql.dataframe_api] is imported by the module but its source is
    not part of it.  The design document says of every function that it
    "validates argument types and forwards": the decorated function keeps
    the name and the signature of [f], checks every argument against the
    annotation of its parameter, and only then calls [f]. *)
Definition validate_argument_types (f : PyFunction) : PyFunction :=
  {| fn_name := fn_name f;
     fn_params := fn_params f;
     fn_returns := fn_returns f;
     fn_body := fun args =>
       if all_conform (fn_params f) args
       then py_call f args
       else raise TypeError |}.
End Functions.

Arguments mkPyFunction {Column World}.
Arguments fn_name {Column World} p.
Arguments fn_params {Column World} p.
Arguments fn_returns {Column World} p.
Arguments fn_body {Column World} p.
Arguments py_call {Column World} f args _.
Arguments validate_argument_types {Column World} f.

(** ** The module *)

Definition __all__ : list string :=
  [ "ST_Contains";
    "ST_Crosses";
    "ST_Disjoint";
    "ST_Equals";
    "ST_Intersects";
    "ST_OrderingEquals";
    "ST_Overlaps";
    "ST_Touches";
    "ST_Within" ].

Section Module.
Variables (Column World : Type).

(** [call_sedona_function object_name function_name args] is imported from
    [sedona.sql.dataframe_api]; the module only calls it, so it is a
    parameter here. *)
Variable call_sedona_function :
  string -> string -> PyVal Column -> Py World Column.

Definition _call_predicate_function : string -> PyVal Column -> Py World Column :=
  call_sedona_function "st_predicates".

Definition ST_Contains : PyFunction Column World :=
  validate_argument_types
    {| fn_name := "ST_Contains";
       fn_params := [("a", ColumnOrName); ("b", ColumnOrName)];
       fn_returns := AnnColumn;
       fn_body := fun args =>
         match args with
         | [a; b] => _call_predicate_function "ST_Contains" (PyTuple [a; b])
         | _ => raise TypeError
         end |}.

Definition ST_Crosses : PyFunction Column World :=
  validate_argument_types
    {| fn_name := "ST_Crosses";
       fn_params := [("a", ColumnOrName); ("b", ColumnOrName)];
       fn_returns := AnnColumn;
       fn_body := fun args =>
         match args with
         | [a; b] => _call_predicate_function "ST_Crosses" (PyTuple [a; b])
         | _ => raise TypeError
         end |}.

Definition ST_Disjoint : PyFunction Column World :=
  validate_argument_types
    {| fn_name := "ST_Disjoint";
       fn_params := [("a", ColumnOrName); ("b", ColumnOrName)];
       fn_returns := AnnColumn;
       fn_body := fun args =>
         match args with
         | [a; b] => _call_predicate_function "ST_Disjoint" (PyTuple [a; b])
         | _ => raise TypeError
         end |}.

Definition ST_Equals : PyFunction Column World :=
  validate_argument_types
    {| fn_name := "ST_Equals";
       fn_params := [("a", ColumnOrName); ("b", ColumnOrName)];
       fn_returns := AnnColumn;
       fn_body := fun args =>
         match args with
         | [a; b] => _call_predicate_function "ST_Equals" (PyTuple [a; b])
         | _ => raise TypeError
         end |}.

Definition ST_Intersects : PyFunction Column World :=
  validate_argument_types
    {| fn_name := "ST_Intersects";
       fn_params := [("a", ColumnOrName); ("b", ColumnOrName)];
       fn_returns := AnnColumn;
       fn_body := fun args =>
         match args with
         | [a; b] => _call_predicate_function "ST_Intersects" (PyTuple [a; b])
         | _ => raise TypeError
         end |}.

Definition ST_OrderingEquals : PyFunction Column World :=
  validate_argument_types
    {| fn_name := "ST_OrderingEquals";
       fn_params := [("a", ColumnOrName); ("b", ColumnOrName)];
       fn_returns := AnnColumn;
       fn_body := fun args =>
         match args with
         | [a; b] => _call_predicate_function "ST_OrderingEquals" (PyTuple [a; b])
         | _ => raise TypeError
         end |}.

Definition ST_Overlaps : PyFunction Column World :=
  validate_argument_types
    {| fn_name := "ST_Overlaps";
       fn_params := [("a", ColumnOrName); ("b", ColumnOrName)];
       fn_returns := AnnColumn;
       fn_body := fun args =>
         match args with
         | [a; b] => _call_predicate_function "ST_Overlaps" (PyTuple [a; b])
         | _ => raise TypeError
         end |}.

Definition ST_Touches : PyFunction Column World :=
  validate_argument_types
    {| fn_name := "ST_Touches";
       fn_params := [("a", ColumnOrName); ("b", ColumnOrName)];
       fn_returns := AnnColumn;
       fn_body := fun args =>
         match args with
         | [a; b] => _call_predicate_function "ST_Touches" (PyTuple [a; b])
         | _ => raise TypeError
         end |}.

Definition ST_Within : PyFunction Column World :=
  validate_argument_types
    {| fn_name := "ST_Within";
       fn_params := [("a", ColumnOrName); ("b", ColumnOrName)];
       fn_returns := AnnColumn;
       fn_body := fun args =>
         match args with
         | [a; b] => _call_predicate_function "ST_Within" (PyTuple [a; b])
         | _ => raise TypeError
         end |}.

(** The functions that the module's [def] statements bind, in source
    order, each under the identifier of its [def].  The other names of the
    module's namespace are imports and the assignment that creates
    [_call_predicate_function]. *)
Definition module_defs : list (string * PyFunction Column World) :=
  [ ("ST_Contains", ST_Contains);
    ("ST_Crosses", ST_Crosses);
    ("ST_Disjoint", ST_Disjoint);
    ("ST_Equals", ST_Equals);
    ("ST_Intersects", ST_Intersects);
    ("ST_OrderingEquals", ST_OrderingEquals);
    ("ST_Overlaps", ST_Overlaps);
    ("ST_Touches", ST_Touches);
    ("ST_Within", ST_Within) ].

(** Attribute lookup in the module by name. *)
Fixpoint getattr (defs : list (string * PyFunction Column World)) (name : string)
  : option (PyFunction Column World) :=
  match defs with
  | [] => None
  | (n, f) :: rest => if String.eqb n name then Some f else getattr rest name
  end.
End Module.

Arguments _call_predicate_function {Column World} call_sedona_function _ _ _.
Arguments ST_Contains {Column World} call_sedona_function.
Arguments ST_Crosses {Column World} call_sedona_function.
Arguments ST_Disjoint {Column World} call_sedona_function.
Arguments ST_Equals {Column World} call_sedona_function.
Arguments ST_Intersects {Column World} call_sedona_function.
Arguments ST_OrderingEquals {Column World} call_sedona_function.
Arguments ST_Overlaps {Column World} call_sedona_function.
Arguments ST_Touches {Column World} call_sedona_function.
Arguments ST_Within {Column World} call_sedona_function.
Arguments module_defs {Column World} call_sedona_function.
Arguments getattr {Column World} defs name.

(** ** The predicate engine behind the dispatcher *)

Section Engine.
Variable Geometry : Type.

(** Modelled from the spec: the topology predicate kernel and the
    vertex-ordering check live in the native geometry engine, which the
    module only reaches by name.  The design document fixes no algorithm
    for them, so the six primitive relations and the ordering check are
    the fields of a kernel; Within and Intersects are not primitive, the
    document defines them from Contains and Disjoint. *)
Record Kernel : Type := mkKernel {
  contains : Geometry -> Geometry -> bool;
  crosses : Geometry -> Geometry -> bool;
  disjoint : Geometry -> Geometry -> bool;
  equals : Geometry -> Geometry -> bool;
  overlaps : Geometry -> Geometry -> bool;
  touches : Geometry -> Geometry -> bool;
  ordering_equals : Geometry -> Geometry -> bool
}.

Variable K : Kernel.

Inductive Predicate : Type :=
| Contains | Crosses | Disjoint | Equals | Intersects
| OrderingEquals | Overlaps | Touches | Within.

(** Modelled from the spec: the predicate dispatch facade, "given a
    predicate name and two geometries, resolves to the matrix pattern or
    direct check, invokes it, and returns a boolean", with
    "Within(A,B): inverse of Contains (B contains A)" and
    "Intersects(A,B): logical negation of Disjoint". *)
Definition dispatch (p : Predicate) (A B : Geometry) : bool :=
  match p with
  | Contains => contains K A B
  | Crosses => crosses K A B
  | Disjoint => disjoint K A B
  | Equals => equals K A B
  | Intersects => negb (disjoint K A B)
  | OrderingEquals => ordering_equals K A B
  | Overlaps => overlaps K A B
  | Touches => touches K A B
  | Within => contains K B A
  end.

(** Modelled from the spec: the named entry points of the engine, "one
    per predicate", under the SQL function names. *)
Definition entry_points : list (string * Predicate) :=
  [ ("ST_Contains", Contains);
    ("ST_Crosses", Crosses);
    ("ST_Disjoint", Disjoint);
    ("ST_Equals", Equals);
    ("ST_Intersects", Intersects);
    ("ST_OrderingEquals", OrderingEquals);
    ("ST_Overlaps", Overlaps);
    ("ST_Touches", Touches);
    ("ST_Within", Within) ].

Fixpoint resolve_in (table : list (string * Predicate)) (function_name : string)
  : option Predicate :=
  match table with
  | [] => None
  | (n, p) :: rest =>
      if String.eqb n function_name then Some p else resolve_in rest function_name
  end.

(** Modelled from the spec: resolution of a "named SQL function" of the
    object ["st_predicates"] to its predicate. *)
Definition resolve (object_name function_name : string) : option Predicate :=
  if String.eqb object_name "st_predicates"
  then resolve_in entry_points function_name
  else None.

(** Modelled from the spec: a row gives every column name its geometry in
    that row, [None] for a null geometry ("missing operand"). *)
Definition Row : Type := string -> option Geometry.

(** Modelled from the spec: a column is a value per row.  The inputs are
    geometry columns ("either a pre-parsed geometry or a column name to be
    resolved to a geometry value at evaluation time"), the output is "one
    boolean column value per row", or the error surfaced for that row. *)
Inductive Column : Type :=
| GeomColumn (v : Row -> option Geometry)
| BoolColumn (v : Row -> Exception + bool).

(** Modelled from the spec: "a column name to be resolved to a geometry
    value at evaluation time". *)
Definition col (name : string) : Column := GeomColumn (fun row => row name).

(** Modelled from the spec: the column that a [ColumnOrName] argument
    stands for. *)
Definition to_column (v : PyVal Column) : option Column :=
  match v with
  | PyStr name => Some (col name)
  | PyColumn c => Some c
  | _ => None
  end.

(** The geometry column that an argument denotes, when it denotes one. *)
Definition geometry_operand (v : PyVal Column) : option (Row -> option Geometry) :=
  match to_column v with
  | Some (GeomColumn g) => Some g
  | _ => None
  end.

(** Modelled from the spec: the geometry of an operand in a row; a column
    that does not hold geometries is not a variant the kernel handles. *)
Definition geometry_of (c : Column) (row : Row) : Exception + option Geometry :=
  match c with
  | GeomColumn v => inr (v row)
  | BoolColumn _ => inl UnsupportedGeometryType
  end.

(** Modelled from the spec: evaluation of a predicate on one row; "null
    geometry input yields a defined NullGeometryError surfaced to the
    caller rather than a false result". *)
Definition evaluate (p : Predicate) (ca cb : Column) (row : Row)
  : Exception + bool :=
  match geometry_of ca row with
  | inl e => inl e
  | inr ga =>
      match geometry_of cb row with
      | inl e => inl e
      | inr gb =>
          match ga, gb with
          | Some A, Some B => inr (dispatch p A B)
          | _, _ => inl NullGeometryError
          end
      end
  end.

Variable World : Type.

(** Modelled from the spec: [call_sedona_function] of
    [sedona.sql.dataframe_api], the "generic call-a-named-SQL-function-
    with-these-columns dispatcher"; its source is not part of the module.
    It looks the function up by object and function name, turns the two
    arguments into columns and returns the column of the predicate applied
    to them.  It is "pure, no side effects, stateless between calls": the
    process state is neither read nor written. *)
Definition call_sedona_function (object_name function_name : string)
    (args : PyVal Column) : Py World Column :=
  match resolve object_name function_name with
  | None => raise (UnresolvedFunction object_name function_name)
  | Some p =>
      match args with
      | PyTuple [a; b] =>
          match to_column a, to_column b with
          | Some ca, Some cb => ret (BoolColumn (evaluate p ca cb))
          | _, _ => raise TypeError
          end
      | _ => raise TypeError
      end
  end.

(** Modelled from the spec: the "one boolean column value per row" of a
    returned column. *)
Definition value_at (c : Column) (row : Row) : Exception + bool :=
  match c with
  | BoolColumn v => v row
  | GeomColumn _ => inl TypeError
  end.

(** Calling a wrapper of the module in state [w] and reading the result
    column on [row]. *)
Definition eval_call (f : PyFunction Column World) (args : list (PyVal Column))
    (w : World) (row : Row) : Exception + bool :=
  match fst (py_call f args w) with
  | inl e => inl e
  | inr c => value_at c row
  end.
End Engine.

Arguments contains {Geometry} k _ _.
Arguments crosses {Geometry} k _ _.
Arguments disjoint {Geometry} k _ _.
Arguments equals {Geometry} k _ _.
Arguments overlaps {Geometry} k _ _.
Arguments touches {Geometry} k _ _.
Arguments ordering_equals {Geometry} k _ _.
Arguments dispatch {Geometry} K p A B.
Arguments GeomColumn {Geometry} v.
Arguments BoolColumn {Geometry} v.
Arguments col {Geometry} name.
Arguments to_column {Geometry} v.
Arguments geometry_of {Geometry} c row.
Arguments geometry_operand {Geometry} v.
Arguments evaluate {Geometry} K p ca cb row.
Arguments call_sedona_function {Geometry} K {World} object_name function_name args _.
Arguments value_at {Geometry} c row.
Arguments eval_call {Geometry World} f args w row.

(** ** Instances used to run the model on concrete inputs *)

(** A dispatcher that only records how it was called: the process state is
    the log of calls, and the column returned is a fixed one. *)
Section Recorder.
Variable Column : Type.
Variable result : Column.

Definition CallLog : Type := list (string * string * PyVal Column).

Definition recorder (object_name function_name : string) (args : PyVal Column)
  : Py CallLog Column :=
  fun log => (inr result, (log ++ [(object_name, function_name, args)])%list).

(** The dispatcher calls made by calling [f] on [args], from an empty log. *)
Definition calls_made (f : PyFunction Column CallLog) (args : list (PyVal Column))
  : CallLog :=
  snd (py_call f args []).
End Recorder.

Arguments recorder {Column} result object_name function_name args _.
Arguments calls_made {Column} f args.

(** The kernel restricted to single points with integer coordinates: a point
    has no boundary, so two points are either equal or disjoint. *)
Definition Point : Type := (Z * Z)%type.

Definition point_eqb (p q : Point) : bool :=
  Z.eqb (fst p) (fst q) && Z.eqb (snd p) (snd q).

Definition point_kernel : Kernel Point :=
  {| contains := point_eqb;
     crosses := fun _ _ => false;
     disjoint := fun p q => negb (point_eqb p q);
     equals := point_eqb;
     overlaps := fun _ _ => false;
     touches := fun _ _ => false;
     ordering_equals := point_eqb |}.

(** A row with two geometry columns, ["here"] and ["there"], and a null
    geometry in every other column. *)
Definition sample_row : Row Point :=
  fun name =>
    if String.eqb name "here" then Some (0, 0)%Z
    else if String.eqb name "there" then Some (5, 5)%Z
    else None.

(** * The module as written *)

(** Case analysis on the membership of a pair in [module_defs]. *)
Ltac each_def H :=
  simpl in H;
  repeat (destruct H as [H | H]; [inversion H; subst; clear H | ]);
  [ .. | contradiction ].

Section ModuleFacts.
Variables (Column World : Type).
Variable dispatcher : string -> string -> PyVal Column -> Py World Column.

Local Abbreviation defs := (module_defs dispatcher).

Lemma def_name n f : In (n, f) defs -> fn_name f = n.
Proof. intros H. each_def H; reflexivity. Qed.

Lemma def_signature n f :
  In (n, f) defs ->
  fn_params f = [("a", ColumnOrName); ("b", ColumnOrName)] /\
  fn_returns f = AnnColumn.
Proof. intros H. each_def H; split; reflexivity. Qed.

Lemma call_wrong_arity n f args w :
  In (n, f) defs -> length args <> 2 -> py_call f args w = (inl TypeError, w).
Proof.
  intros H Hlen.
  assert (Hp : length (fn_params f) = 2)
    by (destruct (def_signature n f H) as [-> _]; reflexivity).
  unfold py_call. rewrite Hp.
  destruct (Nat.eqb_spec (length args) 2) as [E | _]; [contradiction | reflexivity].
Qed.

Lemma call_two n f a b w :
  In (n, f) defs ->
  py_call f [a; b] w =
    if conforms ColumnOrName a && conforms ColumnOrName b
    then dispatcher "st_predicates" n (PyTuple [a; b]) w
    else (inl TypeError, w).
Proof.
  intros H.
  each_def H; destruct a, b; reflexivity.
Qed.

Lemma all_conform_two (args : list (PyVal Column)) :
  all_conform [("a", ColumnOrName); ("b", ColumnOrName)] args = true ->
  exists a b, args = [a; b] /\
    conforms ColumnOrName a = true /\ conforms ColumnOrName b = true.
Proof.
  destruct args as [| a [| b [| c rest]]]; simpl; try discriminate.
  - rewrite andb_false_r. discriminate.
  - rewrite andb_true_r. intros H. apply andb_true_iff in H.
    exists a, b. tauto.
  - rewrite !andb_false_r. discriminate.
Qed.

Lemma all_conform_length (args : list (PyVal Column)) :
  length args <> 2 ->
  all_conform [("a", ColumnOrName); ("b", ColumnOrName)] args = false.
Proof.
  intros Hlen.
  destruct (all_conform _ args) eqn:E; [| reflexivity].
  destruct (all_conform_two args E) as (a & b & -> & _). simpl in Hlen. lia.
Qed.
(** C1: the module exposes exactly nine predicate entry points, the
    ST_-prefixed Contains, Crosses, Disjoint, Equals, Intersects,
    OrderingEquals, Overlaps, Touches and Within; every one of them has
    exactly the two parameters [a] and [b], both annotated [ColumnOrName],
    and the return annotation [Column]; a call with another number of
    arguments is a [TypeError], and a call with two columns or column names
    returns the one column that the engine function of that name yields. *)
Theorem nine_entry_points_of_two_columns :
  __all__ =
    map (String.append "ST_")
      ["Contains"; "Crosses"; "Disjoint"; "Equals"; "Intersects";
       "OrderingEquals"; "Overlaps"; "Touches"; "Within"] /\
  length __all__ = 9 /\
  map fst defs = __all__ /\
  forall n f, In (n, f) defs ->
    fn_params f = [("a", ColumnOrName); ("b", ColumnOrName)] /\
    fn_returns f = AnnColumn /\
    (forall args w, length args <> 2 -> py_call f args w = (inl TypeError, w)) /\
    (forall a b w,
        conforms ColumnOrName a = true -> conforms ColumnOrName b = true ->
        py_call f [a; b] w = dispatcher "st_predicates" n (PyTuple [a; b]) w).
Proof.
  repeat split; try reflexivity.
  - apply (def_signature n f H).
  - apply (def_signature n f H).
  - intros args w Hlen. exact (call_wrong_arity n f args w H Hlen).
  - intros a b w Ha Hb. rewrite (call_two n f a b w H), Ha, Hb. reflexivity.
Qed.

(** C2: every function of the module has the same shape.  It first checks
    its arguments against the two [ColumnOrName] annotations; when the check
    fails the call raises and the dispatcher is not run (the state is the one
    before the call); when it passes, the outcome of the call, value and
    state, is that of the dispatcher applied to ["st_predicates"], the
    function's name and the tuple of the arguments, whatever the dispatcher
    is: the function computes nothing of its own. *)
Theorem wrappers_validate_then_forward n f args w :
  In (n, f) defs ->
  py_call f args w =
    if all_conform [("a", ColumnOrName); ("b", ColumnOrName)] args
    then dispatcher "st_predicates" n (PyTuple args) w
    else (inl TypeError, w).
Proof.
  intros H.
  destruct (Nat.eq_dec (length args) 2) as [E | NE].
  - destruct args as [| a [| b [| c rest]]]; try discriminate E.
    rewrite (call_two n f a b w H). simpl. rewrite andb_true_r. reflexivity.
  - rewrite (all_conform_length args NE). exact (call_wrong_arity n f args w H NE).
Qed.

(** C8: every wrapper forwards, as the SQL function name, the string that is
    its own name, which is also the name it is exported under, and every
    wrapper passes the object name ["st_predicates"]. *)
Theorem wrappers_forward_own_name n f a b w :
  In (n, f) defs ->
  conforms ColumnOrName a = true ->
  conforms ColumnOrName b = true ->
  fn_name f = n /\
  In (fn_name f) __all__ /\
  py_call f [a; b] w =
    dispatcher "st_predicates" (fn_name f) (PyTuple [a; b]) w.
Proof.
  intros H Ha Hb.
  rewrite (def_name n f H).
  split; [reflexivity | split].
  - change __all__ with (map fst defs). exact (in_map fst _ _ H).
  - rewrite (call_two n f a b w H), Ha, Hb. reflexivity.
Qed.

(** C10: [__all__] lists exactly the functions that the module defines:
    the identifiers bound by the [def] statements, in source order, are the
    entries of [__all__], which are pairwise distinct, and every entry
    resolves in the module to a function of that name. *)
Theorem all_lists_exactly_the_defs :
  map fst defs = __all__ /\
  map (fun d => fn_name (snd d)) defs = __all__ /\
  NoDup __all__ /\
  Forall (fun name => exists f, getattr defs name = Some f /\ fn_name f = name)
    __all__.
Proof.
  split; [reflexivity | split; [reflexivity | split]].
  - unfold __all__.
    repeat (constructor; [simpl; intuition discriminate | ]). constructor.
  - unfold __all__. repeat constructor; eexists; split; reflexivity.
Qed.
End ModuleFacts.

Section RecorderFacts.
Variable Column : Type.
Variable result : Column.

(** C9: every wrapper hands its two arguments to the dispatcher as they
    came: called on [a] and [b], it makes exactly one dispatcher call, whose
    argument is the tuple [(a, b)], first [a] then [b], and it returns the
    dispatcher's column as it is. *)
Theorem wrappers_forward_arguments_in_order n f a b :
  In (n, f) (module_defs (recorder result)) ->
  conforms ColumnOrName a = true ->
  conforms ColumnOrName b = true ->
  calls_made f [a; b] = [("st_predicates", n, PyTuple [a; b])] /\
  fst (py_call f [a; b] []) = inr result.
Proof.
  intros H Ha Hb. unfold calls_made.
  rewrite (call_two _ _ (recorder result) n f a b [] H), Ha, Hb.
  split; reflexivity.
Qed.
End RecorderFacts.

(** * The wrappers over the predicate engine *)

Section EngineFacts.
Variable Geometry : Type.
Variable K : Kernel Geometry.
Variable World : Type.

Local Abbreviation call := (@call_sedona_function Geometry K World).
Local Abbreviation defs := (module_defs call).

Lemma defs_resolve n f :
  In (n, f) defs -> exists p, resolve "st_predicates" n = Some p.
Proof. intros H. each_def H; eexists; reflexivity. Qed.

Lemma conforms_to_column (v : PyVal (Column Geometry)) :
  conforms ColumnOrName v = true -> exists c, to_column v = Some c.
Proof. destruct v; simpl; try discriminate; eexists; reflexivity. Qed.

Lemma geometry_operand_conforms (v : PyVal (Column Geometry)) g :
  geometry_operand v = Some g ->
  conforms ColumnOrName v = true /\ to_column v = Some (GeomColumn g).
Proof.
  unfold geometry_operand.
  destruct v as [| | s | [g' | g'] |]; simpl; try discriminate;
    intros E; inversion E; subst; split; reflexivity.
Qed.



(** What a wrapper evaluates to on a row when both arguments denote geometry
    columns. *)
Lemma eval_call_geometry n f a b ga gb w row :
  In (n, f) defs ->
  geometry_operand a = Some ga ->
  geometry_operand b = Some gb ->
  exists p, resolve "st_predicates" n = Some p /\
    eval_call f [a; b] w row =
      match ga row, gb row with
      | Some A, Some B => inr (dispatch K p A B)
      | _, _ => inl NullGeometryError
      end.
Proof.
  intros H Ha Hb.
  destruct (geometry_operand_conforms a ga Ha) as [Ca Ta].
  destruct (geometry_operand_conforms b gb Hb) as [Cb Tb].
  destruct (defs_resolve n f H) as [p Hp]. exists p. split; [exact Hp |].
  unfold eval_call. rewrite (call_two _ _ call n f a b w H), Ca, Cb. simpl.
  unfold call_sedona_function. rewrite Hp, Ta, Tb. reflexivity.
Qed.

(** With this engine the column that a wrapper returns is a boolean one. *)
Lemma wrappers_return_boolean_column n f a b w :
  In (n, f) defs ->
  conforms ColumnOrName a = true ->
  conforms ColumnOrName b = true ->
  exists v, py_call f [a; b] w = (inr (BoolColumn v), w).
Proof.
  intros H Ca Cb.
  destruct (conforms_to_column a Ca) as [ca Ta].
  destruct (conforms_to_column b Cb) as [cb Tb].
  destruct (defs_resolve n f H) as [p Hp].
  rewrite (call_two _ _ call n f a b w H), Ca, Cb. simpl.
  unfold call_sedona_function. rewrite Hp, Ta, Tb. eexists. reflexivity.
Qed.

(** C4: Intersects is the negation of Disjoint.  For all operands that
    denote geometry columns and every row in which they hold the geometries
    [A] and [B], [ST_Disjoint(a, b)] evaluates to the boolean that the
    kernel gives for Disjoint(A,B), and [ST_Intersects(a, b)] evaluates to
    the negation of that boolean. *)
Theorem intersects_is_not_disjoint a b ga gb A B w row :
  geometry_operand a = Some ga ->
  geometry_operand b = Some gb ->
  ga row = Some A ->
  gb row = Some B ->
  eval_call (ST_Disjoint call) [a; b] w row = inr (disjoint K A B) /\
  eval_call (ST_Intersects call) [a; b] w row = inr (negb (disjoint K A B)).
Proof.
  intros Ha Hb HA HB.
  assert (HD : In ("ST_Disjoint", ST_Disjoint call) defs) by (simpl; tauto).
  assert (HI : In ("ST_Intersects", ST_Intersects call) defs) by (simpl; tauto).
  destruct (eval_call_geometry _ _ a b ga gb w row HD Ha Hb) as (p & Hp & ->).
  destruct (eval_call_geometry _ _ a b ga gb w row HI Ha Hb) as (q & Hq & ->).
  vm_compute in Hp, Hq. inversion Hp; inversion Hq; subst p q.
  rewrite HA, HB. split; reflexivity.
Qed.

(** C5: Contains and Within are each other's argument swap.  For all
    operands that denote geometry columns and every row in which they hold
    the geometries [A] and [B], [ST_Contains(a, b)] and [ST_Within(b, a)]
    evaluate to the same boolean, the one that the kernel gives for
    Contains(A,B). *)
Theorem contains_is_within_swapped a b ga gb A B w row :
  geometry_operand a = Some ga ->
  geometry_operand b = Some gb ->
  ga row = Some A ->
  gb row = Some B ->
  eval_call (ST_Contains call) [a; b] w row = inr (contains K A B) /\
  eval_call (ST_Within call) [b; a] w row = inr (contains K A B).
Proof.
  intros Ha Hb HA HB.
  assert (HC : In ("ST_Contains", ST_Contains call) defs) by (simpl; tauto).
  assert (HW : In ("ST_Within", ST_Within call) defs) by (simpl; tauto).
  destruct (eval_call_geometry _ _ a b ga gb w row HC Ha Hb) as (p & Hp & ->).
  destruct (eval_call_geometry _ _ b a gb ga w row HW Hb Ha) as (q & Hq & ->).
  vm_compute in Hp, Hq. inversion Hp; inversion Hq; subst p q.
  rewrite HA, HB. split; reflexivity.
Qed.

(** C7: for every predicate entry point, when an operand is a null geometry
    in the row, the evaluation does not give false: it gives
    [NullGeometryError]. *)
Theorem null_operand_raises n f a b ga gb w row :
  In (n, f) defs ->
  geometry_operand a = Some ga ->
  geometry_operand b = Some gb ->
  ga row = None \/ gb row = None ->
  eval_call f [a; b] w row = inl NullGeometryError /\
  eval_call f [a; b] w row <> inr false.
Proof.
  intros H Ha Hb Hnull.
  destruct (eval_call_geometry n f a b ga gb w row H Ha Hb) as (p & _ & ->).
  assert (E : match ga row, gb row with
              | Some A, Some B => inr (dispatch K p A B)
              | _, _ => inl NullGeometryError
              end = @inl Exception bool NullGeometryError).
  { destruct Hnull as [-> | ->]; [reflexivity |].
    destruct (ga row); reflexivity. }
  rewrite E. split; [reflexivity | discriminate].
Qed.
End EngineFacts.

(** * Concrete runs *)

(** Two distinct points of [sample_row] are disjoint, do not intersect and
    do not touch. *)
Example disjoint_points_run :
  eval_call (ST_Disjoint (call_sedona_function point_kernel)) [PyStr "here"; PyStr "there"]
    tt sample_row = inr true /\
  eval_call (ST_Intersects (call_sedona_function point_kernel)) [PyStr "here"; PyStr "there"]
    tt sample_row = inr false /\
  eval_call (ST_Touches (call_sedona_function point_kernel)) [PyStr "here"; PyStr "there"]
    tt sample_row = inr false.
Proof. repeat split; reflexivity. Qed.

(** An argument that is neither a column nor a name stops at validation. *)
Example ill_typed_argument_run :
  py_call (ST_Equals (recorder tt)) [PyStr "here"; PyInt 7] [] = (inl TypeError, []).
Proof. reflexivity. Qed.

Lemma nine_entry_points_of_two_columns_witness :
  In ("ST_Touches", ST_Touches (recorder tt)) (module_defs (recorder tt)) /\
  length [@PyStr unit "here"] <> 2 /\
  py_call (ST_Touches (recorder tt)) [PyStr "here"] [] = (inl TypeError, []).
Proof.
  assert (H : In ("ST_Touches", ST_Touches (recorder tt)) (module_defs (recorder tt)))
    by (simpl; tauto).
  destruct (nine_entry_points_of_two_columns unit _ (recorder tt))
    as (_ & _ & _ & Hdefs).
  destruct (Hdefs _ _ H) as (_ & _ & Harity & _).
  split; [exact H | split; [discriminate | apply Harity; discriminate]].
Defined.

Lemma wrappers_validate_then_forward_witness :
  In ("ST_Contains", ST_Contains (recorder tt)) (module_defs (recorder tt)) /\
  py_call (ST_Contains (recorder tt)) [PyStr "here"; PyStr "there"] [] =
    (inr tt, [("st_predicates", "ST_Contains", PyTuple [PyStr "here"; PyStr "there"])]).
Proof.
  assert (H : In ("ST_Contains", ST_Contains (recorder tt)) (module_defs (recorder tt)))
    by (simpl; tauto).
  split; [exact H |].
  exact (wrappers_validate_then_forward unit _ (recorder tt) _ _
           [PyStr "here"; PyStr "there"] [] H).
Defined.

Lemma wrappers_forward_own_name_witness :
  In ("ST_Overlaps", ST_Overlaps (recorder tt)) (module_defs (recorder tt)) /\
  conforms ColumnOrName (@PyStr unit "here") = true /\
  conforms ColumnOrName (PyColumn tt) = true /\
  fn_name (ST_Overlaps (recorder tt)) = "ST_Overlaps" /\
  In (fn_name (ST_Overlaps (recorder tt))) __all__ /\
  py_call (ST_Overlaps (recorder tt)) [PyStr "here"; PyColumn tt] [] =
    recorder tt "st_predicates" "ST_Overlaps" (PyTuple [PyStr "here"; PyColumn tt]) [].
Proof.
  assert (H : In ("ST_Overlaps", ST_Overlaps (recorder tt)) (module_defs (recorder tt)))
    by (simpl; tauto).
  split; [exact H | split; [reflexivity | split; [reflexivity |]]].
  exact (wrappers_forward_own_name unit _ (recorder tt) _ _
           (PyStr "here") (PyColumn tt) [] H eq_refl eq_refl).
Defined.

Lemma wrappers_forward_arguments_in_order_witness :
  In ("ST_Within", ST_Within (recorder 0)) (module_defs (recorder 0)) /\
  conforms ColumnOrName (@PyColumn nat 1) = true /\
  conforms ColumnOrName (@PyColumn nat 2) = true /\
  calls_made (ST_Within (recorder 0)) [PyColumn 1; PyColumn 2] =
    [("st_predicates", "ST_Within", PyTuple [PyColumn 1; PyColumn 2])] /\
  fst (py_call (ST_Within (recorder 0)) [PyColumn 1; PyColumn 2] []) = inr 0.
Proof.
  assert (H : In ("ST_Within", ST_Within (recorder 0)) (module_defs (recorder 0)))
    by (simpl; tauto).
  split; [exact H | split; [reflexivity | split; [reflexivity |]]].
  exact (wrappers_forward_arguments_in_order nat 0 _ _
           (PyColumn 1) (PyColumn 2) H eq_refl eq_refl).
Defined.

Lemma intersects_is_not_disjoint_witness :
  geometry_operand (@PyStr (Column Point) "here") = Some (fun row => row "here") /\
  geometry_operand (@PyStr (Column Point) "there") = Some (fun row => row "there") /\
  sample_row "here" = Some (0, 0)%Z /\
  sample_row "there" = Some (5, 5)%Z /\
  eval_call (ST_Disjoint (@call_sedona_function _ point_kernel unit))
    [PyStr "here"; PyStr "there"] tt sample_row = inr true /\
  eval_call (ST_Intersects (@call_sedona_function _ point_kernel unit))
    [PyStr "here"; PyStr "there"] tt sample_row = inr false.
Proof.
  split; [reflexivity | split; [reflexivity | split; [reflexivity | split; [reflexivity |]]]].
  exact (intersects_is_not_disjoint Point point_kernel unit
           (PyStr "here") (PyStr "there") _ _ (0, 0)%Z (5, 5)%Z tt sample_row
           eq_refl eq_refl eq_refl eq_refl).
Defined.

Lemma contains_is_within_swapped_witness :
  geometry_operand (@PyStr (Column Point) "here") = Some (fun row => row "here") /\
  geometry_operand (@PyColumn (Column Point) (GeomColumn (fun _ => Some (0, 0)%Z))) =
    Some (fun _ => Some (0, 0)%Z) /\
  sample_row "here" = Some (0, 0)%Z /\
  eval_call (ST_Contains (@call_sedona_function _ point_kernel unit))
    [PyStr "here"; PyColumn (GeomColumn (fun _ => Some (0, 0)%Z))] tt sample_row =
    inr true /\
  eval_call (ST_Within (@call_sedona_function _ point_kernel unit))
    [PyColumn (GeomColumn (fun _ => Some (0, 0)%Z)); PyStr "here"] tt sample_row =
    inr true.
Proof.
  split; [reflexivity | split; [reflexivity | split; [reflexivity |]]].
  exact (contains_is_within_swapped Point point_kernel unit
           (PyStr "here") (PyColumn (GeomColumn (fun _ => Some (0, 0)%Z)))
           _ _ (0, 0)%Z (0, 0)%Z tt sample_row
           eq_refl eq_refl eq_refl eq_refl).
Defined.

Lemma null_operand_raises_witness :
  In ("ST_Within", ST_Within (@call_sedona_function _ point_kernel unit))
     (module_defs (@call_sedona_function _ point_kernel unit)) /\
  geometry_operand (@PyStr (Column Point) "here") = Some (fun row => row "here") /\
  geometry_operand (@PyStr (Column Point) "nowhere") = Some (fun row => row "nowhere") /\
  (sample_row "here" = None \/ sample_row "nowhere" = None) /\
  eval_call (ST_Within (@call_sedona_function _ point_kernel unit))
    [PyStr "here"; PyStr "nowhere"] tt sample_row = inl NullGeometryError.
Proof.
  assert (H : In ("ST_Within", ST_Within (@call_sedona_function _ point_kernel unit))
                (module_defs (@call_sedona_function _ point_kernel unit)))
    by (simpl; tauto).
  split; [exact H | split; [reflexivity | split; [reflexivity | split]]].
  - right. reflexivity.
  - exact (proj1 (null_operand_raises Point point_kernel unit _ _
                    (PyStr "here") (PyStr "nowhere") _ _ tt sample_row
                    H eq_refl eq_refl (or_intror eq_refl))).
Defined.

(** * Further properties of the module *)

Section ModuleUse.
Variables (Column World : Type).
Variable dispatcher : string -> string -> PyVal Column -> Py World Column.

Local Abbreviation defs := (module_defs dispatcher).

(** A name is bound to one function only. *)
Lemma defs_functional n f g : In (n, f) defs -> In (n, g) defs -> f = g.
Proof. intros Hf Hg. each_def Hf; each_def Hg; reflexivity. Qed.

Lemma def_exported n f : In (n, f) defs -> In n __all__.
Proof. intros H. change __all__ with (map fst defs). exact (in_map fst _ _ H). Qed.

(** Nested calls: the column that one wrapper returns is accepted by every
    wrapper, in either position.  The inner call is evaluated first; when
    it raises, the outer function is not entered; otherwise the two calls
    reach the dispatcher one after the other, the second with the column
    of the first in the place where it was written. *)
Theorem wrappers_nest n f m g a b x w :
  In (n, f) defs ->
  In (m, g) defs ->
  conforms ColumnOrName a = true ->
  conforms ColumnOrName b = true ->
  conforms ColumnOrName x = true ->
  bind (py_call f [a; b]) (fun c => py_call g [PyColumn c; x]) w =
    bind (dispatcher "st_predicates" n (PyTuple [a; b]))
         (fun c => dispatcher "st_predicates" m (PyTuple [PyColumn c; x])) w /\
  bind (py_call f [a; b]) (fun c => py_call g [x; PyColumn c]) w =
    bind (dispatcher "st_predicates" n (PyTuple [a; b]))
         (fun c => dispatcher "st_predicates" m (PyTuple [x; PyColumn c])) w.
Proof.
  intros Hf Hg Ha Hb Hx. unfold bind.
  rewrite (call_two _ _ dispatcher n f a b w Hf), Ha, Hb. simpl.
  destruct (dispatcher "st_predicates" n (PyTuple [a; b]) w) as [[e | c] w'].
  - split; reflexivity.
  - rewrite !(call_two _ _ dispatcher m g _ _ w' Hg), Hx. split; reflexivity.
Qed.
End ModuleUse.

Section TwoDispatchers.
Variables (Column World : Type).
Variables d1 d2 : string -> string -> PyVal Column -> Py World Column.

(** The module's use of the dispatcher is confined to the object
    ["st_predicates"], the nine exported names and pairs of columns or
    column names: two dispatchers that agree there give wrappers that agree
    on every argument list and in every state. *)
Theorem wrappers_depend_only_on_their_entries n f1 f2 args w :
  (forall name a b w',
      In name __all__ ->
      conforms ColumnOrName a = true ->
      conforms ColumnOrName b = true ->
      d1 "st_predicates" name (PyTuple [a; b]) w' =
        d2 "st_predicates" name (PyTuple [a; b]) w') ->
  In (n, f1) (module_defs d1) ->
  In (n, f2) (module_defs d2) ->
  py_call f1 args w = py_call f2 args w.
Proof.
  intros Hagree H1 H2.
  destruct (Nat.eq_dec (length args) 2) as [E | NE].
  - destruct args as [| a [| b [| c rest]]]; try discriminate E.
    rewrite (call_two _ _ d1 n f1 a b w H1), (call_two _ _ d2 n f2 a b w H2).
    destruct (conforms ColumnOrName a) eqn:Ha; [| reflexivity].
    destruct (conforms ColumnOrName b) eqn:Hb; [| reflexivity].
    simpl. exact (Hagree n a b w (def_exported _ _ d1 n f1 H1) Ha Hb).
  - rewrite (call_wrong_arity _ _ d1 n f1 args w H1 NE).
    rewrite (call_wrong_arity _ _ d2 n f2 args w H2 NE). reflexivity.
Qed.
End TwoDispatchers.

Section DistinctCalls.
Variable Column : Type.
Variable result : Column.

(** No two wrappers stand for the same engine function: when two functions
    of the module, called on the same pair of arguments, make the same
    dispatcher call, they are the same function under the same name. *)
Theorem same_call_same_wrapper n1 f1 n2 f2 a b :
  In (n1, f1) (module_defs (recorder result)) ->
  In (n2, f2) (module_defs (recorder result)) ->
  conforms ColumnOrName a = true ->
  conforms ColumnOrName b = true ->
  calls_made f1 [a; b] = calls_made f2 [a; b] ->
  n1 = n2 /\ f1 = f2.
Proof.
  intros H1 H2 Ha Hb. unfold calls_made.
  rewrite (call_two _ _ (recorder result) n1 f1 a b [] H1).
  rewrite (call_two _ _ (recorder result) n2 f2 a b [] H2).
  rewrite Ha, Hb. simpl. intros E.
  assert (En : n1 = n2) by (inversion E; reflexivity).
  subst n2. split; [reflexivity |].
  exact (defs_functional _ _ (recorder result) n1 f1 f2 H1 H2).
Qed.
End DistinctCalls.

Lemma wrappers_nest_witness :
  In ("ST_Within", ST_Within (recorder tt)) (module_defs (recorder tt)) /\
  In ("ST_Equals", ST_Equals (recorder tt)) (module_defs (recorder tt)) /\
  conforms ColumnOrName (@PyStr unit "here") = true /\
  conforms ColumnOrName (@PyStr unit "there") = true /\
  conforms ColumnOrName (@PyStr unit "elsewhere") = true /\
  snd (bind (py_call (ST_Within (recorder tt)) [PyStr "here"; PyStr "there"])
         (fun c => py_call (ST_Equals (recorder tt)) [PyColumn c; PyStr "elsewhere"])
         []) =
    [ ("st_predicates", "ST_Within", PyTuple [PyStr "here"; PyStr "there"]);
      ("st_predicates", "ST_Equals", PyTuple [PyColumn tt; PyStr "elsewhere"]) ].
Proof.
  assert (Hf : In ("ST_Within", ST_Within (recorder tt)) (module_defs (recorder tt)))
    by (simpl; tauto).
  assert (Hg : In ("ST_Equals", ST_Equals (recorder tt)) (module_defs (recorder tt)))
    by (simpl; tauto).
  split; [exact Hf | split; [exact Hg |]].
  split; [reflexivity | split; [reflexivity | split; [reflexivity |]]].
  exact (f_equal snd
           (proj1 (wrappers_nest unit _ (recorder tt) _ _ _ _
                     (PyStr "here") (PyStr "there") (PyStr "elsewhere") []
                     Hf Hg eq_refl eq_refl eq_refl))).
Defined.

Lemma wrappers_depend_only_on_their_entries_witness :
  In ("ST_Crosses", ST_Crosses (recorder tt)) (module_defs (recorder tt)) /\
  py_call (ST_Crosses (recorder tt)) [PyStr "here"; PyStr "there"] [] =
    py_call
      (ST_Crosses
         (fun o fn v =>
            if String.eqb o "st_predicates" then recorder tt o fn v
            else raise TypeError))
      [PyStr "here"; PyStr "there"] [].
Proof.
  assert (H : In ("ST_Crosses", ST_Crosses (recorder tt)) (module_defs (recorder tt)))
    by (simpl; tauto).
  split; [exact H |].
  apply (wrappers_depend_only_on_their_entries unit _ (recorder tt)
           (fun o fn v =>
              if String.eqb o "st_predicates" then recorder tt o fn v
              else raise TypeError)
           "ST_Crosses").
  - intros name a b w' _ _ _. reflexivity.
  - exact H.
  - simpl; tauto.
Defined.

Lemma same_call_same_wrapper_witness :
  In ("ST_Touches", ST_Touches (recorder tt)) (module_defs (recorder tt)) /\
  conforms ColumnOrName (@PyStr unit "here") = true /\
  conforms ColumnOrName (@PyStr unit "there") = true /\
  calls_made (ST_Touches (recorder tt)) [PyStr "here"; PyStr "there"] =
    calls_made (ST_Touches (recorder tt)) [PyStr "here"; PyStr "there"] /\
  "ST_Touches" = "ST_Touches" /\
  ST_Touches (recorder tt) = ST_Touches (recorder tt).
Proof.
  assert (H : In ("ST_Touches", ST_Touches (recorder tt)) (module_defs (recorder tt)))
    by (simpl; tauto).
  split; [exact H | split; [reflexivity | split; [reflexivity | split; [reflexivity |]]]].
  exact (same_call_same_wrapper unit tt _ _ _ _ (PyStr "here") (PyStr "there")
           H H eq_refl eq_refl eq_refl).
Defined.

Section StateOfDispatch.
Variables (Column World : Type).
Variable dispatcher : string -> string -> PyVal Column -> Py World Column.

End StateOfDispatch.



